(** * label-mastering: the QC scaffolding, embedded package by package

    One module per Go package of the repository: [domain] is
    internal/domain/entities.go, [qc] is internal/qc (engine.go and
    ffmpeg.go), [s3] the storage adapter, [postgres] the job repository,
    [service] the use-case wiring, [migrations] the qc_jobs table of
    migrations/001_init.sql. [context], [errors], [runtime] and [sql] give
    the notions of the Go runtime and standard library that this code
    touches; [readme] holds what the README fixes about deliveries;
    [lifecycle] holds the job transitions, which the repository does not
    code, and [decision] the evaluation the engine is to perform, which
    it does not code either. [apphttp] is internal/http (routes and
    logging middleware) over [nethttp], [json], [url], [time], [log] and
    [process]; [init_001] is the whole migration script with the run of
    its statements.

    Conventions.
    - A Go [string] is a [string]; an [int] is a [Z]; a [float64] is a
      [spec_float] (IEEE 754 datum, zero value [+0]).
    - A nil slice and an empty slice are both [[]]; a nil map and an empty
      map are both [∅]: the code never tells them apart.
    - [time.Time] is a [Z] (nanoseconds since the epoch); a pointer field
      that may be nil is an [option].
    - The Go [error] interface is [option errors.error]: [None] is [nil].
      Pointer identity of error values is not modelled, only their text.
    - A field of interface type holds [None] (the nil interface) or
      [Some] value; a call through a nil interface panics, and a function
      that can panic returns a [runtime.outcome]. *)

From Stdlib Require Import ZArith List SpecFloat.
From Stdlib Require QArith.
From stdpp Require Import base option strings gmap fin_maps.
Import ListNotations.

Local Open Scope string_scope.
Local Open Scope Z_scope.

(** ** Runtime notions *)

Module context.

(** What a [context.Context] lets its holder observe. *)
Record Context : Type := mkContext {
  Deadline : option Z;
  Done     : bool;
  Err      : option string
}.

Definition Background : Context :=
  {| Deadline := None; Done := false; Err := None |}.

Definition Cancelled : Context :=
  {| Deadline := None; Done := true; Err := Some "context canceled" |}.

End context.

Module runtime.

(** How a call ends: with its return values, or by a run-time panic. *)
Inductive outcome (A : Type) : Type :=
| Returned (a : A)
| Panicked (reason : string).

Arguments Returned {A} a.
Arguments Panicked {A} reason.

Definition nilDereference : string :=
  "runtime error: invalid memory address or nil pointer dereference".

End runtime.

Module errors.

(** [errors.New] wraps a text in an [*errorString]. *)
Inductive error : Type := errorString (s : string).

Definition New (text : string) : error := errorString text.

Definition Error (e : error) : string :=
  match e with errorString s => s end.

End errors.

(** ** package domain *)

Module domain.

Definition MixType := string.

Definition MixTypeBeatportMaster : MixType := "BEATPORT_MASTER".
Definition MixTypeSpotifyMaster  : MixType := "SPOTIFY_MASTER".
Definition MixTypeVinylPremaster : MixType := "VINYL_PREMASTER".

Definition JobStatus := string.

Definition JobStatusQueued    : JobStatus := "QUEUED".
Definition JobStatusRunning   : JobStatus := "RUNNING".
Definition JobStatusCompleted : JobStatus := "COMPLETED".
Definition JobStatusFailed    : JobStatus := "FAILED".

Record QCResult : Type := mkQCResult {
  SampleRate      : Z;
  BitDepth        : Z;
  Channels        : Z;
  IntegratedLUFS  : spec_float;
  TruePeakDBTP    : spec_float;
  FilenameValid   : bool;
  MetadataPresent : gmap string bool;
  Passed          : bool;
  Failures        : list string
}.

Record Job : Type := mkJob {
  ID         : string;
  ReleaseID  : string;
  TrackID    : string;
  MixFileID  : string;
  Status     : JobStatus;
  Error      : string;
  Result     : option QCResult;
  QueuedAt   : Z;
  StartedAt  : option Z;
  FinishedAt : option Z
}.

End domain.

(** ** package qc *)

Module qc.

Record Input : Type := mkInput {
  Path     : string;
  Filename : string;
  MixType  : string
}.

Record Result : Type := mkResult {
  SampleRate      : Z;
  BitDepth        : Z;
  Channels        : Z;
  IntegratedLUFS  : spec_float;
  TruePeakDBTP    : spec_float;
  FilenameValid   : bool;
  MetadataPresent : gmap string bool;
  Passed          : bool;
  Failures        : list string
}.

(** The composite literal [Result{}]: every field at its zero value. *)
Definition Result_zero : Result :=
  {| SampleRate := 0; BitDepth := 0; Channels := 0;
     IntegratedLUFS := S754_zero false; TruePeakDBTP := S754_zero false;
     FilenameValid := false; MetadataPresent := ∅;
     Passed := false; Failures := [] |}.

(** [type Engine interface { Analyze(ctx, in) (Result, error) }]. A call
    of the method returns its two values or panics. *)
Class Engine (E : Type) : Type := {
  Analyze : E -> context.Context -> Input ->
            runtime.outcome (Result * option errors.error)
}.

(** An interface value: a dynamic type, its method table, a receiver. *)
Record EngineValue : Type := mkEngineValue {
  dyn_type : Type;
  dyn_methods : Engine dyn_type;
  dyn_receiver : dyn_type
}.

Definition engineOf {E : Type} `{Engine E} (e : E) : EngineValue :=
  {| dyn_type := E; dyn_methods := _; dyn_receiver := e |}.

Definition call_Analyze (e : EngineValue)
    (ctx : context.Context) (i : Input)
    : runtime.outcome (Result * option errors.error) :=
  @Analyze (dyn_type e) (dyn_methods e) (dyn_receiver e) ctx i.

Record Service : Type := mkService { engine : option EngineValue }.

Definition NewService (engine : option EngineValue) : Service :=
  {| engine := engine |}.

Definition Run (s : Service) (ctx : context.Context) (i : Input)
    : runtime.outcome (Result * option errors.error) :=
  match engine s with
  | Some e => call_Analyze e ctx i
  | None => runtime.Panicked runtime.nilDereference
  end.

(** ffmpeg.go *)
Inductive FFmpegOrchestrator : Type := mkFFmpegOrchestrator.

Definition NewFFmpegOrchestrator : FFmpegOrchestrator := mkFFmpegOrchestrator.

Definition FFmpegOrchestrator_Analyze (o : FFmpegOrchestrator)
    (ctx : context.Context) (i : Input)
    : runtime.outcome (Result * option errors.error) :=
  runtime.Returned
    (Result_zero, Some (errors.New "ffmpeg orchestration not implemented")).

#[global] Instance FFmpegOrchestrator_Engine : Engine FFmpegOrchestrator :=
  {| Analyze := FFmpegOrchestrator_Analyze |}.

(** [*FFmpegOrchestrator] has the method too; [None] is the nil pointer.
    The method has a value receiver, so a call through a nil pointer
    panics before the body runs. *)
Definition nilValueReceiver : string :=
  "value method label-mastering/internal/qc.FFmpegOrchestrator.Analyze called using nil *FFmpegOrchestrator pointer".

#[global] Instance FFmpegOrchestrator_pointer_Engine
    : Engine (option FFmpegOrchestrator) :=
  {| Analyze := fun p ctx i =>
       match p with
       | Some o => FFmpegOrchestrator_Analyze o ctx i
       | None => runtime.Panicked nilValueReceiver
       end |}.

End qc.

(** ** package s3 *)

Module s3.

Record Adapter : Type := mkAdapter { bucket : string }.

Definition NewAdapter (bucket : string) : Adapter := {| bucket := bucket |}.

Definition DownloadToPath (a : Adapter) (ctx : context.Context)
    (objectKey path : string) : option errors.error :=
  None.

End s3.

(** ** package service *)

Module service.

(** The rows behind a job repository are keyed by job id and threaded
    through every call: a method returns its error and the rows it
    leaves behind. *)
Class JobRepository (R : Type) : Type := {
  Save   : R -> context.Context -> domain.Job ->
           gmap string domain.Job -> option errors.error * gmap string domain.Job;
  Update : R -> context.Context -> domain.Job ->
           gmap string domain.Job -> option errors.error * gmap string domain.Job
}.

Class JobQueue (Q : Type) : Type := {
  Enqueue : Q -> context.Context -> domain.Job ->
            list domain.Job -> option errors.error * list domain.Job
}.

Class Storage (S : Type) : Type := {
  DownloadToPath : S -> context.Context -> string -> string -> option errors.error
}.

Record JobRepositoryValue : Type := mkJobRepositoryValue {
  jobs_type : Type;
  jobs_methods : JobRepository jobs_type;
  jobs_receiver : jobs_type
}.

Record JobQueueValue : Type := mkJobQueueValue {
  queue_type : Type;
  queue_methods : JobQueue queue_type;
  queue_receiver : queue_type
}.

Record StorageValue : Type := mkStorageValue {
  storage_type : Type;
  storage_methods : Storage storage_type;
  storage_receiver : storage_type
}.

Record QCUseCase : Type := mkQCUseCase {
  jobs    : option JobRepositoryValue;
  queue   : option JobQueueValue;
  storage : option StorageValue;
  qc      : qc.Service
}.

Definition NewQCUseCase (jobs : option JobRepositoryValue)
    (queue : option JobQueueValue) (storage : option StorageValue)
    (qcService : qc.Service) : QCUseCase :=
  {| jobs := jobs; queue := queue; storage := storage; qc := qcService |}.

(** The method set of [JobRepository], reified: one constructor per
    method of the interface, so a client's whole use of the boundary is
    a list of these. *)
Inductive JobRepositoryCall : Type :=
| CallSave   (ctx : context.Context) (job : domain.Job)
| CallUpdate (ctx : context.Context) (job : domain.Job).

Definition perform {R : Type} `{JobRepository R} (r : R)
    (c : JobRepositoryCall) (rows : gmap string domain.Job)
    : option errors.error * gmap string domain.Job :=
  match c with
  | CallSave ctx job   => Save r ctx job rows
  | CallUpdate ctx job => Update r ctx job rows
  end.

Fixpoint performAll {R : Type} `{JobRepository R} (r : R)
    (cs : list JobRepositoryCall) (rows : gmap string domain.Job)
    : gmap string domain.Job :=
  match cs with
  | [] => rows
  | c :: cs' => performAll r cs' (snd (perform r c rows))
  end.

End service.

(** ** package postgres *)

Module sql.

(** [*sql.DB]: an opaque handle; the rows it gives access to are the
    state threaded through the repository methods. *)
Definition DB : Type := positive.

End sql.

Module postgres.

Record JobRepository : Type := mkJobRepository { db : sql.DB }.

Definition NewJobRepository (db : sql.DB) : JobRepository := {| db := db |}.

Definition Save (r : JobRepository) (ctx : context.Context) (job : domain.Job)
    (rows : gmap string domain.Job)
    : option errors.error * gmap string domain.Job :=
  (None, rows).

Definition Update (r : JobRepository) (ctx : context.Context) (job : domain.Job)
    (rows : gmap string domain.Job)
    : option errors.error * gmap string domain.Job :=
  (None, rows).

End postgres.

(** Go interfaces are satisfied structurally: the adapters above are the
    implementations of the [service] boundaries. *)

#[global] Instance s3_Adapter_Storage : service.Storage s3.Adapter :=
  {| service.DownloadToPath := s3.DownloadToPath |}.

#[global] Instance postgres_JobRepository : service.JobRepository postgres.JobRepository :=
  {| service.Save := postgres.Save; service.Update := postgres.Update |}.

(** ** migrations/001_init.sql, table qc_jobs *)

Module migrations.

Record Column : Type := mkColumn {
  col_name    : string;
  col_type    : string;
  not_null    : bool;
  primary_key : bool;
  references  : option (string * string);
  default_now : bool
}.

Definition qc_jobs : list Column :=
  [ mkColumn "id"          "TEXT"        false true  None                    false;
    mkColumn "release_id"  "TEXT"        true  false (Some ("releases", "id"))  false;
    mkColumn "track_id"    "TEXT"        true  false (Some ("tracks", "id"))    false;
    mkColumn "mix_file_id" "TEXT"        true  false (Some ("mix_files", "id")) false;
    mkColumn "status"      "TEXT"        true  false None                    false;
    mkColumn "error"       "TEXT"        false false None                    false;
    mkColumn "result"      "JSONB"       false false None                    false;
    mkColumn "queued_at"   "TIMESTAMPTZ" true  false None                    true;
    mkColumn "started_at"  "TIMESTAMPTZ" false false None                    false;
    mkColumn "finished_at" "TIMESTAMPTZ" false false None                    false ].

Definition column_names (t : list Column) : list string := map col_name t.

End migrations.

(** ** The delivery standard the repository documents

    The README's "Mastering Delivery Spec (Reference)", section Metadata:
    the tags required at QC time, in the order they are listed (ISRC is
    assigned after approval and is not in the list). *)

Module readme.

Definition requiredTags : list string :=
  ["Artist"; "Track Title"; "Label Name"; "Catalog Number"; "Release Year"].

(** The README's first naming example, as an engine input. *)
Definition beatportExample : qc.Input :=
  {| qc.Path := "deliverables/Artist – Track (IMR-012) [BEATPORT MASTER].wav";
     qc.Filename := "Artist – Track (IMR-012) [BEATPORT MASTER].wav";
     qc.MixType := domain.MixTypeBeatportMaster |}.

End readme.

(** The one engine the repository can put behind a [qc.Service]. *)
Definition ffmpegService : qc.Service :=
  qc.NewService (Some (qc.engineOf qc.NewFFmpegOrchestrator)).

(** ** Job lifecycle *)

Module lifecycle.

(** Modelled from the spec: the catalog reference state of section 3
    (Job) and ADR 0001; no Go type, struct field or table column of the
    repository declares it. *)
Inductive CatalogReferenceState : Type :=
| valid | stale | missing | soft_deleted | unknown.

(** Modelled from the spec: the Verdict a Job owns is the engine's
    result (section 3); the repository declares [qc.Result] and
    [domain.QCResult] with the same fields and no conversion between
    them. *)
Definition toQCResult (r : qc.Result) : domain.QCResult :=
  {| domain.SampleRate := qc.SampleRate r;
     domain.BitDepth := qc.BitDepth r;
     domain.Channels := qc.Channels r;
     domain.IntegratedLUFS := qc.IntegratedLUFS r;
     domain.TruePeakDBTP := qc.TruePeakDBTP r;
     domain.FilenameValid := qc.FilenameValid r;
     domain.MetadataPresent := qc.MetadataPresent r;
     domain.Passed := qc.Passed r;
     domain.Failures := qc.Failures r |}.

(** Modelled from the spec: [Running --succeed--> Completed] of section
    4.6, persisting the verdict; the repository's [service.QCUseCase]
    has a constructor and no method, so no transition is coded. *)
Definition succeed (now : Z) (v : domain.QCResult) (j : domain.Job)
    : option domain.Job :=
  if String.eqb (domain.Status j) domain.JobStatusRunning then
    Some {| domain.ID := domain.ID j;
            domain.ReleaseID := domain.ReleaseID j;
            domain.TrackID := domain.TrackID j;
            domain.MixFileID := domain.MixFileID j;
            domain.Status := domain.JobStatusCompleted;
            domain.Error := domain.Error j;
            domain.Result := Some v;
            domain.QueuedAt := domain.QueuedAt j;
            domain.StartedAt := domain.StartedAt j;
            domain.FinishedAt := Some now |}
  else None.

(** Modelled from the spec: [Running --fail--> Failed] of section 4.6,
    "with the error recorded verbatim"; missing from the repository for
    the same reason as [succeed]. *)
Definition fail (now : Z) (e : errors.error) (j : domain.Job)
    : option domain.Job :=
  if String.eqb (domain.Status j) domain.JobStatusRunning then
    Some {| domain.ID := domain.ID j;
            domain.ReleaseID := domain.ReleaseID j;
            domain.TrackID := domain.TrackID j;
            domain.MixFileID := domain.MixFileID j;
            domain.Status := domain.JobStatusFailed;
            domain.Error := errors.Error e;
            domain.Result := domain.Result j;
            domain.QueuedAt := domain.QueuedAt j;
            domain.StartedAt := domain.StartedAt j;
            domain.FinishedAt := Some now |}
  else None.

(** Modelled from the spec: what the Lifecycle Manager does with the
    outcome of the decide stage (sections 2 and 4.6): a result without
    error is a Verdict and completes the job, an error fails it. The
    repository has no code for this step. *)
Definition settle (now : Z) (outcome : qc.Result * option errors.error)
    (j : domain.Job) : option domain.Job :=
  match outcome with
  | (r, None)   => succeed now (toQCResult r) j
  | (_, Some e) => fail now e j
  end.

(** Modelled from the spec: the decide stage of one job (section 5,
    "decide, then persist"), run through the use case's [qc.Service];
    the repository wires the service into [service.QCUseCase] and never
    calls it. A panic of the call leaves the job as it was. *)
Definition evaluate (uc : service.QCUseCase) (ctx : context.Context)
    (now : Z) (i : qc.Input) (j : domain.Job) : option domain.Job :=
  match qc.Run (service.qc uc) ctx i with
  | runtime.Returned outcome => settle now outcome j
  | runtime.Panicked _ => None
  end.

End lifecycle.

(** ** The process environment: wall clock and standard logger *)

Module time.

(** A [time.Time] as [time.Now] returns it: a wall clock reading and a
    monotonic clock reading, both in nanoseconds. *)
Record Time : Type := mkTime {
  wall : Z;
  mono : Z
}.

(** A [time.Duration] is an int64 count of nanoseconds. *)
Definition minDuration : Z := - 2 ^ 63.
Definition maxDuration : Z := 2 ^ 63 - 1.

(** [t.Sub(u)] for two times that carry a monotonic reading: the
    difference of those readings, held at the ends of the int64 range. *)
Definition Sub (t u : Time) : Z :=
  let d := mono t - mono u in
  if d <? minDuration then minDuration
  else if maxDuration <? d then maxDuration
  else d.

End time.

Module log.

(** An operand of a [Printf] call, kept as the value passed. *)
Inductive Arg : Type :=
| ArgString (s : string)
| ArgDuration (d : Z).

(** One call on the standard logger: the wall clock time it stamps the
    line with, the format and the operands (the line is not rendered). *)
Record Entry : Type := mkEntry {
  stamp  : Z;
  format : string;
  args   : list Arg
}.

End log.

Module process.

(** What the HTTP code reads and writes outside its arguments. The clock
    is an oracle: [readings n] is what the [n]-th reading of the clock
    returns, [reads] counts the readings made so far. [logged] is the
    output of the standard logger, oldest call first. *)
Record World : Type := mkWorld {
  readings : nat -> time.Time;
  reads    : nat;
  logged   : list log.Entry
}.

(** [time.Now()] *)
Definition time_Now (w : World) : time.Time * World :=
  (readings w (reads w),
   {| readings := readings w; reads := S (reads w); logged := logged w |}).

(** [time.Since(t)] is [time.Now().Sub(t)]. *)
Definition time_Since (t : time.Time) (w : World) : Z * World :=
  let (now, w') := time_Now w in (time.Sub now t, w').

(** [log.Printf(format, args...)] on the standard logger with its default
    flags: it reads the clock for the line's date and time. *)
Definition log_Printf (format : string) (args : list log.Arg) (w : World) : World :=
  let (now, w') := time_Now w in
  {| readings := readings w'; reads := reads w';
     logged := logged w' ++ [ log.mkEntry (time.wall now) format args ] |}.

End process.

(** ** net/http and encoding/json, as far as the handlers use them *)

Module url.

Record URL : Type := mkURL { Path : string }.

End url.

Module json.

Definition doubleQuote : string := String (Ascii.ascii_of_nat 34) EmptyString.
Definition newline : string := String (Ascii.ascii_of_nat 10) EmptyString.

(** A JSON string literal, for a text that needs no escape (letters). *)
Definition quote (s : string) : string :=
  String.append doubleQuote (String.append s doubleQuote).

(** What [Encoder.Encode] writes for a one-entry [map[string]string]: the
    object on one line, then a newline. *)
Definition Encode_entry (key value : string) : string :=
  String.append "{"
    (String.append (quote key)
       (String.append ":"
          (String.append (quote value) (String.append "}" newline)))).

End json.

Module nethttp.

(** [*http.Request], as far as this code reads it. [URL] is a pointer
    and may be nil. *)
Record Request : Type := mkRequest {
  Method : string;
  URL    : option url.URL
}.

Definition StatusOK : Z := 200.

(** How one call on a response writer ends: it returns or it panics,
    leaving an environment and a writer state either way. *)
Inductive step (W : Type) : Type :=
| Stepped (w : process.World) (wr : W)
| Crashed (reason : string) (w : process.World) (wr : W).

Arguments Stepped {W} w wr.
Arguments Crashed {W} reason w wr.

(** [http.ResponseWriter] is an interface: what its methods do is up to
    the implementation behind it (the server's response, a recorder, a
    wrapper), which may also log or read the clock. [W] is the state of
    that implementation. [Header_Set wr key value] stands for the call
    [w.Header().Set(key, value)], [Write] for a [w.Write] whose results
    the caller drops. *)
Class ResponseWriter (W : Type) : Type := {
  Header_Set  : W -> string -> string -> process.World -> step W;
  WriteHeader : W -> Z -> process.World -> step W;
  Write       : W -> string -> process.World -> step W
}.

(** How serving one request ends. A handler receives the request by
    pointer: [assigned] is what it did to the fields of the request,
    which its caller sees afterwards. *)
Inductive result (W : Type) : Type :=
| Served (w : process.World) (wr : W) (assigned : Request -> Request)
| Panics (reason : string) (w : process.World) (wr : W).

Arguments Served {W} w wr assigned.
Arguments Panics {W} reason w wr.

(** [ServeHTTP(w, r)]: the writer, the request pointer ([None] is nil),
    the environment. *)
Definition Handler (W : Type) : Type :=
  W -> option Request -> process.World -> result W.

(** What a [ServeMux] demands of a pattern differs between Go releases:
    before 1.22 a pattern conflicts only with itself, from 1.22 on also
    with a registered pattern that overlaps it without being more or less
    specific, and more patterns are invalid. The two tests are therefore
    parameters of the mux. *)
Record MuxRules : Type := mkMuxRules {
  valid     : string -> bool;
  conflicts : string -> string -> bool
}.

(** [mux.HandleFunc(pattern, handler)] on a [*ServeMux] ([None] is the
    nil pointer): it panics on a nil handler, on an invalid pattern, on a
    pattern in conflict with a registered one and on a nil mux (which
    panic is raised when several apply, and its text, depend on the
    release); otherwise the handler is registered. *)
Definition HandleFunc {W : Type} (rules : MuxRules)
    (mux : option (gmap string (Handler W))) (pattern : string)
    (handler : option (Handler W)) : runtime.outcome (gmap string (Handler W)) :=
  match handler with
  | None => runtime.Panicked "http: nil handler"
  | Some h =>
      if negb (valid rules pattern) then
        runtime.Panicked "http: invalid pattern"
      else
        match mux with
        | None => runtime.Panicked runtime.nilDereference
        | Some m =>
            if existsb (fun p => conflicts rules p pattern)
                       (map fst (map_to_list m)) then
              runtime.Panicked (String.append "http: conflicting pattern " pattern)
            else runtime.Returned (<[pattern := h]> m)
        end
  end.

End nethttp.

(** ** package http (internal/http) *)

Module apphttp.

Definition healthzHandler {W : Type} `{nethttp.ResponseWriter W}
    : nethttp.Handler W :=
  fun wr _ w =>
    match nethttp.Header_Set wr "Content-Type" "application/json" w with
    | nethttp.Crashed reason w1 wr1 => nethttp.Panics reason w1 wr1
    | nethttp.Stepped w1 wr1 =>
        match nethttp.WriteHeader wr1 nethttp.StatusOK w1 with
        | nethttp.Crashed reason w2 wr2 => nethttp.Panics reason w2 wr2
        | nethttp.Stepped w2 wr2 =>
            match nethttp.Write wr2 (json.Encode_entry "status" "ok") w2 with
            | nethttp.Crashed reason w3 wr3 => nethttp.Panics reason w3 wr3
            | nethttp.Stepped w3 wr3 => nethttp.Served w3 wr3 (fun q => q)
            end
        end
    end.

Definition RegisterRoutes {W : Type} `{nethttp.ResponseWriter W}
    (rules : nethttp.MuxRules) (mux : option (gmap string (nethttp.Handler W)))
    : runtime.outcome (gmap string (nethttp.Handler W)) :=
  nethttp.HandleFunc rules mux "/healthz" (Some healthzHandler).

(** middleware.go. [next] is an interface value and may be nil; the call
    through it then panics, after the clock was read. Nothing is deferred:
    when [next] panics the log call is not reached. After [next] the
    operands of the log call are read through the request pointer, as
    [next] left the request: a nil request or a nil URL panics there. *)
Definition LoggingMiddleware {W : Type} (next : option (nethttp.Handler W))
    : nethttp.Handler W :=
  fun wr r w =>
    let (started, w1) := process.time_Now w in
    match next with
    | None => nethttp.Panics runtime.nilDereference w1 wr
    | Some h =>
        match h wr r w1 with
        | nethttp.Panics reason w2 wr2 => nethttp.Panics reason w2 wr2
        | nethttp.Served w2 wr2 assigned =>
            match assigned <$> r with
            | None => nethttp.Panics runtime.nilDereference w2 wr2
            | Some q =>
                match nethttp.URL q with
                | None => nethttp.Panics runtime.nilDereference w2 wr2
                | Some u =>
                    let (elapsed, w3) := process.time_Since started w2 in
                    nethttp.Served
                      (process.log_Printf "method=%s path=%s duration=%s"
                         [ log.ArgString (nethttp.Method q);
                           log.ArgString (url.Path u);
                           log.ArgDuration elapsed ] w3)
                      wr2 assigned
                end
            end
        end
    end.

End apphttp.

(** ** migrations/001_init.sql, the whole script *)

Module init_001.

Definition releases : list migrations.Column :=
  [ migrations.mkColumn "id"           "TEXT"        false true  None false;
    migrations.mkColumn "catalog"      "TEXT"        true  false None false;
    migrations.mkColumn "label"        "TEXT"        true  false None false;
    migrations.mkColumn "artist"       "TEXT"        true  false None false;
    migrations.mkColumn "title"        "TEXT"        true  false None false;
    migrations.mkColumn "release_year" "INT"         true  false None false;
    migrations.mkColumn "created_at"   "TIMESTAMPTZ" true  false None true;
    migrations.mkColumn "updated_at"   "TIMESTAMPTZ" true  false None true ].

Definition tracks : list migrations.Column :=
  [ migrations.mkColumn "id"         "TEXT" false true  None                   false;
    migrations.mkColumn "release_id" "TEXT" true  false (Some ("releases", "id")) false;
    migrations.mkColumn "artist"     "TEXT" true  false None                   false;
    migrations.mkColumn "title"      "TEXT" true  false None                   false ].

Definition mix_files : list migrations.Column :=
  [ migrations.mkColumn "id"         "TEXT"        false true  None                 false;
    migrations.mkColumn "track_id"   "TEXT"        true  false (Some ("tracks", "id")) false;
    migrations.mkColumn "mix_type"   "TEXT"        true  false None                 false;
    migrations.mkColumn "object_key" "TEXT"        true  false None                 false;
    migrations.mkColumn "created_at" "TIMESTAMPTZ" true  false None                 true ].

(** One [CREATE TABLE IF NOT EXISTS name (columns)] statement. *)
Record CreateTable : Type := mkCreateTable {
  tbl_name    : string;
  tbl_columns : list migrations.Column
}.

(** The script, statement by statement. *)
Definition script : list CreateTable :=
  [ mkCreateTable "releases"  releases;
    mkCreateTable "tracks"    tracks;
    mkCreateTable "mix_files" mix_files;
    mkCreateTable "qc_jobs"   migrations.qc_jobs ].

(** A [REFERENCES table(column)] resolves when the table is in the
    catalog and the column is its primary key, of the referencing
    column's type. (The database accepts more type pairs than identical
    ones; every reference of this script is TEXT to TEXT.) *)
Definition resolves (cat : gmap string (list migrations.Column))
    (c : migrations.Column) : bool :=
  match migrations.references c with
  | None => true
  | Some (t, k) =>
      match cat !! t with
      | None => false
      | Some cols =>
          existsb (fun c' =>
                     String.eqb (migrations.col_name c') k
                     && migrations.primary_key c'
                     && String.eqb (migrations.col_type c') (migrations.col_type c))
                  cols
      end
  end.

(** Running one statement: a table that exists is skipped as it is, with
    a notice and without any check; otherwise the table is created if all
    its references resolve (a table may refer to itself), and the
    statement fails if one does not. *)
Definition exec (cat : gmap string (list migrations.Column)) (s : CreateTable)
    : option (gmap string (list migrations.Column)) :=
  match cat !! tbl_name s with
  | Some _ => Some cat
  | None =>
      let cat' := <[tbl_name s := tbl_columns s]> cat in
      if forallb (resolves cat') (tbl_columns s) then Some cat' else None
  end.

(** Running a script with the statements sent one by one, in order,
    stopping at the first that fails. The result is the catalog reached
    and the table whose statement failed, if any. *)
Fixpoint run (ss : list CreateTable) (cat : gmap string (list migrations.Column))
    : gmap string (list migrations.Column) * option string :=
  match ss with
  | [] => (cat, None)
  | s :: rest =>
      match exec cat s with
      | Some cat' => run rest cat'
      | None => (cat, Some (tbl_name s))
      end
  end.

End init_001.

(** ** Calls on a repository, with their errors *)

Module boundary.

(** The errors of a sequence of repository calls, in call order. *)
Fixpoint errorsOf {R : Type} `{service.JobRepository R} (r : R)
    (cs : list service.JobRepositoryCall) (rows : gmap string domain.Job)
    : list (option errors.error) :=
  match cs with
  | [] => []
  | c :: cs' =>
      fst (service.perform r c rows)
      :: errorsOf r cs' (snd (service.perform r c rows))
  end.

End boundary.

(** ** The decision the engine is to take *)

Module decision.

(** Modelled from the spec: the Thresholds of section 3, with LUFS and
    dBTP values as rationals. The repository has no rule catalog:
    [FFmpegOrchestrator.Analyze] is a placeholder that evaluates
    nothing. *)
Record Thresholds : Type := mkThresholds {
  requiredSampleRate : Z;
  requiredBitDepth   : Z;
  bandLow            : QArith_base.Q;
  bandHigh           : QArith_base.Q;
  ceiling            : option QArith_base.Q;
  truePeakLimit      : QArith_base.Q;
  allowedChannels    : list Z
}.

(** Modelled from the spec: the Measurement of section 3; the repository
    measures nothing. *)
Record Measurement : Type := mkMeasurement {
  sampleRate         : Z;
  bitDepth           : Z;
  channelCount       : Z;
  integratedLoudness : QArith_base.Q;
  truePeak           : QArith_base.Q
}.

(** Modelled from the spec: the closed vocabulary of failure codes of
    section 4.5; the repository's [Failures] are strings that no code
    produces. *)
Inductive FailureCode : Type :=
| SampleRateMismatch
| BitDepthMismatch
| ChannelLayoutInvalid
| LoudnessOutOfBand
| LoudnessCeilingExceeded
| TruePeakExceeded
| NamingMismatch
| MetadataMissing (tagName : string).

(** Modelled from the spec: what the Naming Validator of section 4.3
    extracts from a file name; the repository has no parser. *)
Record ParsedName : Type := mkParsedName {
  artist        : string;
  title         : string;
  catalogNumber : string;
  mixTypeToken  : string
}.

(** Modelled from the spec: one check of section 4.5, whether it holds
    and the code it contributes when it does not. *)
Record Check : Type := mkCheck {
  holds : bool;
  code  : FailureCode
}.

(** Modelled from the spec: a required tag is present when the tag map
    says so (section 4.4); an absent entry counts as missing. *)
Definition present (tags : gmap string bool) (tag : string) : bool :=
  match tags !! tag with
  | Some true => true
  | _ => false
  end.

(** Modelled from the spec: the eight checks of section 4.5 in their
    fixed order; check 8 is one check per required tag, in the order the
    tags are declared. [naming] is [None] when the file name did not
    parse. *)
Definition checks (m : Measurement) (th : Thresholds)
    (naming : option ParsedName) (tags : gmap string bool)
    (strictNaming : bool) : list Check :=
  [ mkCheck (sampleRate m =? requiredSampleRate th) SampleRateMismatch;
    mkCheck (bitDepth m =? requiredBitDepth th) BitDepthMismatch;
    mkCheck (existsb (Z.eqb (channelCount m)) (allowedChannels th))
            ChannelLayoutInvalid;
    mkCheck (QArith_base.Qle_bool (bandLow th) (integratedLoudness m)
             && QArith_base.Qle_bool (integratedLoudness m) (bandHigh th))
            LoudnessOutOfBand;
    mkCheck (match ceiling th with
             | Some c => negb (QArith_base.Qle_bool c (integratedLoudness m))
             | None => true
             end)
            LoudnessCeilingExceeded;
    mkCheck (QArith_base.Qle_bool (truePeak m) (truePeakLimit th))
            TruePeakExceeded;
    mkCheck (negb (strictNaming && match naming with None => true | Some _ => false end))
            NamingMismatch ]
  ++ map (fun tag => mkCheck (present tags tag) (MetadataMissing tag))
         readme.requiredTags.

(** Modelled from the spec: the Verdict of section 3. *)
Record Verdict : Type := mkVerdict {
  passed      : bool;
  failures    : list FailureCode;
  measurement : Measurement;
  namingFound : option ParsedName;
  metadata    : gmap string bool
}.

(** Modelled from the spec: [Evaluate] of section 4.5. The verdict passes
    when every check holds, and lists the codes of the checks that do
    not hold, in check order; it keeps the measurement, the naming result
    and the tag map whatever the outcome. The repository has no such
    function: the one engine it has returns the zero [Result] with an
    error on every input. *)
Definition Evaluate (m : Measurement) (th : Thresholds)
    (naming : option ParsedName) (tags : gmap string bool)
    (strictNaming : bool) : Verdict :=
  let cs := checks m th naming tags strictNaming in
  {| passed := forallb holds cs;
     failures := map code (List.filter (fun c => negb (holds c)) cs);
     measurement := m;
     namingFound := naming;
     metadata := tags |}.

(** The README's Beatport limits (24 bit, 48 kHz, -8 to -6 LUFS, never
    louder than -6, true peak at most -1.0 dBTP, stereo). *)
Definition beatport : Thresholds :=
  {| requiredSampleRate := 48000; requiredBitDepth := 24;
     bandLow := QArith_base.Qmake (-8) 1; bandHigh := QArith_base.Qmake (-6) 1;
     ceiling := Some (QArith_base.Qmake (-6) 1);
     truePeakLimit := QArith_base.Qmake (-1) 1;
     allowedChannels := [2] |}.

Definition allTags : gmap string bool :=
  list_to_map (map (fun tag => (tag, true)) readme.requiredTags).

Definition parsedExample : ParsedName :=
  mkParsedName "Artist" "Track" "IMR-012" "BEATPORT MASTER".

End decision.

(** ** Sample values *)

Module samples.

(** A failing verdict: a Beatport master measured too loud
    (-5.75 LUFS, true peak -1.25 dBTP). *)
Definition loudResult : qc.Result :=
  {| qc.SampleRate := 48000; qc.BitDepth := 24; qc.Channels := 2;
     qc.IntegratedLUFS := S754_finite true 23 (-2);
     qc.TruePeakDBTP := S754_finite true 5 (-2);
     qc.FilenameValid := true;
     qc.MetadataPresent := ∅;
     qc.Passed := false;
     qc.Failures := ["LoudnessCeilingExceeded"] |}.

Definition runningJob : domain.Job :=
  {| domain.ID := "job-1"; domain.ReleaseID := "rel-1";
     domain.TrackID := "trk-1"; domain.MixFileID := "mix-1";
     domain.Status := domain.JobStatusRunning; domain.Error := "";
     domain.Result := None; domain.QueuedAt := 100;
     domain.StartedAt := Some 200; domain.FinishedAt := None |}.

Definition completedJob : domain.Job :=
  {| domain.ID := "job-1"; domain.ReleaseID := "rel-1";
     domain.TrackID := "trk-1"; domain.MixFileID := "mix-1";
     domain.Status := domain.JobStatusCompleted; domain.Error := "";
     domain.Result := Some (lifecycle.toQCResult loudResult);
     domain.QueuedAt := 100;
     domain.StartedAt := Some 200; domain.FinishedAt := Some 300 |}.

Definition queuedJob : domain.Job :=
  {| domain.ID := "job-2"; domain.ReleaseID := "rel-1";
     domain.TrackID := "trk-1"; domain.MixFileID := "mix-2";
     domain.Status := domain.JobStatusQueued; domain.Error := "";
     domain.Result := None; domain.QueuedAt := 400;
     domain.StartedAt := None; domain.FinishedAt := None |}.

Definition repository : postgres.JobRepository := postgres.NewJobRepository 1%positive.

Definition calls : list service.JobRepositoryCall :=
  [ service.CallSave context.Background queuedJob;
    service.CallUpdate context.Background runningJob;
    service.CallSave context.Cancelled completedJob ].

End samples.

(** ** Sample values for the HTTP layer and the migration *)

Module fixtures.

Definition clock (n : nat) : time.Time :=
  {| time.wall := 1700000000000000000 + 1000 * Z.of_nat n;
     time.mono := 1000 * Z.of_nat n |}.

Definition world : process.World :=
  {| process.readings := clock; process.reads := 0; process.logged := [] |}.

Definition postHealthz : nethttp.Request :=
  {| nethttp.Method := "POST"; nethttp.URL := Some (url.mkURL "/healthz") |}.

(** A response writer that only records the calls made on it. *)
Inductive Call : Type :=
| CallHeaderSet (key value : string)
| CallWriteHeader (code : Z)
| CallWrite (bytes : string).

#[global] Instance recorder : nethttp.ResponseWriter (list Call) :=
  {| nethttp.Header_Set := fun (wr : list Call) k v w => nethttp.Stepped w (wr ++ [CallHeaderSet k v])%list;
     nethttp.WriteHeader := fun (wr : list Call) c w => nethttp.Stepped w (wr ++ [CallWriteHeader c])%list;
     nethttp.Write := fun (wr : list Call) b w => nethttp.Stepped w (wr ++ [CallWrite b])%list |}.

Definition healthzCalls : list Call :=
  [ CallHeaderSet "Content-Type" "application/json";
    CallWriteHeader 200;
    CallWrite (json.Encode_entry "status" "ok") ].

Definition panicking : nethttp.Handler (list Call) :=
  fun wr _ w => nethttp.Panics "boom" w wr.

(** A handler that rewrites the path of its request and clears nothing. *)
Definition rewriting : nethttp.Handler (list Call) :=
  fun wr _ w =>
    nethttp.Served w wr
      (fun q => {| nethttp.Method := nethttp.Method q;
                   nethttp.URL := Some (url.mkURL "/internal/health") |}).

(** A handler that sets the URL of its request to nil. *)
Definition clearingURL : nethttp.Handler (list Call) :=
  fun wr _ w =>
    nethttp.Served w wr
      (fun q => {| nethttp.Method := nethttp.Method q; nethttp.URL := None |}).

(** The pattern rules of a mux before Go 1.22. *)
Definition exactRules : nethttp.MuxRules :=
  {| nethttp.valid := fun p => negb (String.eqb p "");
     nethttp.conflicts := String.eqb |}.

(** A database that already has a qc_jobs table of another shape. *)
Definition legacy : gmap string (list migrations.Column) :=
  {[ "qc_jobs" := [ migrations.mkColumn "id" "TEXT" false true None false ] ]}.

End fixtures.

(** * Properties *)

(** ** The engine behind [qc.Service] *)

Lemma Run_forwards (e : qc.EngineValue) (ctx : context.Context) (i : qc.Input) :
  qc.Run (qc.NewService (Some e)) ctx i = qc.call_Analyze e ctx i.
Proof. reflexivity. Qed.

Lemma Run_nil_engine_panics (ctx : context.Context) (i : qc.Input) :
  qc.Run (qc.NewService None) ctx i = runtime.Panicked runtime.nilDereference.
Proof. reflexivity. Qed.

Lemma Run_ffmpeg (ctx : context.Context) (i : qc.Input) :
  qc.Run ffmpegService ctx i =
  runtime.Returned
    (qc.Result_zero, Some (errors.New "ffmpeg orchestration not implemented")).
Proof.
  unfold ffmpegService. rewrite Run_forwards.
  unfold qc.call_Analyze, qc.engineOf; simpl.
  unfold qc.FFmpegOrchestrator_Analyze. reflexivity.
Qed.

(** C1: the code at the README's Beatport example, under any context:
    the engine comes back with the error "ffmpeg orchestration not
    implemented", and so not with a Verdict and a nil error. *)
Theorem Analyze_returns_error_not_verdict :
  forall ctx : context.Context,
    (exists (r : qc.Result) (e : errors.error),
       qc.Run ffmpegService ctx readme.beatportExample
       = runtime.Returned (r, Some e) /\
       errors.Error e = "ffmpeg orchestration not implemented") /\
    ~ (exists v : qc.Result,
         qc.Run ffmpegService ctx readme.beatportExample
         = runtime.Returned (v, None)).
Proof.
  intros ctx. rewrite Run_ffmpeg. split.
  - eexists; eexists. split; reflexivity.
  - intros [v Hv]. discriminate Hv.
Qed.

(** C2: the code at the README's Beatport example. Whatever the file
    measures, the engine reports [Passed = false] and an error. *)
Theorem Analyze_beatportExample_not_passed :
  forall ctx : context.Context,
    exists r : qc.Result,
      qc.Run ffmpegService ctx readme.beatportExample
      = runtime.Returned
          (r, Some (errors.New "ffmpeg orchestration not implemented")) /\
      qc.Passed r = false.
Proof.
  intros ctx. exists qc.Result_zero. split; [apply Run_ffmpeg | reflexivity].
Qed.

(** C3: the code on any Beatport input, a too-loud master included: no
    failure code at all is returned, so none of them is the
    ceiling-exceeded one, however it is spelled. *)
Theorem Analyze_reports_no_ceiling_failure :
  forall (ctx : context.Context) (path filename : string),
    exists (r : qc.Result) (err : option errors.error),
      qc.Run ffmpegService ctx
        (qc.mkInput path filename domain.MixTypeBeatportMaster)
      = runtime.Returned (r, err) /\
      forall code : string, ~ In code (qc.Failures r).
Proof.
  intros ctx path filename. eexists; eexists.
  split; [apply Run_ffmpeg |].
  intros code Hin. destruct Hin.
Qed.



(** The two Beatport scenarios of the spec under [Evaluate]: a master at
    -7.0 LUFS and -1.2 dBTP passes with no failure; one at -5.8 LUFS
    fails on the band and on the ceiling. *)
Example Evaluate_beatport_scenarios :
  decision.passed
    (decision.Evaluate
       (decision.mkMeasurement 48000 24 2
          (QArith_base.Qmake (-70) 10) (QArith_base.Qmake (-12) 10))
       decision.beatport (Some decision.parsedExample) decision.allTags true)
  = true /\
  decision.failures
    (decision.Evaluate
       (decision.mkMeasurement 48000 24 2
          (QArith_base.Qmake (-58) 10) (QArith_base.Qmake (-12) 10))
       decision.beatport (Some decision.parsedExample) decision.allTags true)
  = [decision.LoudnessOutOfBand; decision.LoudnessCeilingExceeded].
Proof. split; vm_compute; reflexivity. Qed.

(** C5: the code on any input: the returned presence map has none of the
    five required tags, and still the failure list is empty instead of
    holding one entry per missing tag. *)
Theorem Analyze_reports_no_missing_tag :
  forall (ctx : context.Context) (i : qc.Input),
    exists (r : qc.Result) (err : option errors.error),
      qc.Run ffmpegService ctx i = runtime.Returned (r, err) /\
      Forall (fun tag => qc.MetadataPresent r !! tag = None) readme.requiredTags /\
      length readme.requiredTags = 5%nat /\
      length (qc.Failures r) = 0%nat.
Proof.
  intros ctx i. eexists; eexists.
  split; [apply Run_ffmpeg |].
  split; [| split; reflexivity].
  apply Forall_forall. intros tag _. apply lookup_empty.
Qed.

(** C8: two runs on the same input, under any two contexts, return the
    same result and the same error; in particular their failure lists
    agree position by position. *)
Theorem Run_deterministic :
  forall (ctx1 ctx2 : context.Context) (i : qc.Input),
    exists (r1 r2 : qc.Result) (e1 e2 : option errors.error),
      qc.Run ffmpegService ctx1 i = runtime.Returned (r1, e1) /\
      qc.Run ffmpegService ctx2 i = runtime.Returned (r2, e2) /\
      r1 = r2 /\ e1 = e2 /\
      forall n : nat, qc.Failures r1 !! n = qc.Failures r2 !! n.
Proof.
  intros ctx1 ctx2 i.
  exists qc.Result_zero, qc.Result_zero.
  exists (Some (errors.New "ffmpeg orchestration not implemented")).
  exists (Some (errors.New "ffmpeg orchestration not implemented")).
  rewrite !Run_ffmpeg. repeat split; reflexivity.
Qed.

(** ** The Job record and its table *)

(** C6: the code's [Job] is exactly its ten declared fields, so whatever
    catalog reference state one reads off a job is a function of those
    ten; and the qc_jobs table has the ten matching columns, none of them
    a catalog reference state. *)
Theorem Job_has_no_catalog_reference_state :
  (forall (f : domain.Job -> lifecycle.CatalogReferenceState) (j : domain.Job),
     f j = f (domain.mkJob (domain.ID j) (domain.ReleaseID j) (domain.TrackID j)
                (domain.MixFileID j) (domain.Status j) (domain.Error j)
                (domain.Result j) (domain.QueuedAt j) (domain.StartedAt j)
                (domain.FinishedAt j))) /\
  migrations.column_names migrations.qc_jobs =
    ["id"; "release_id"; "track_id"; "mix_file_id"; "status"; "error";
     "result"; "queued_at"; "started_at"; "finished_at"] /\
  ~ In "catalog_reference_state" (migrations.column_names migrations.qc_jobs).
Proof.
  split; [| split].
  - intros f []; reflexivity.
  - reflexivity.
  - simpl. intros H.
    repeat (destruct H as [H | H]; [discriminate H |]). exact H.
Qed.

(** ** Lifecycle *)


Lemma fail_running (now : Z) (e : errors.error) (j : domain.Job) :
  domain.Status j = domain.JobStatusRunning ->
  exists j', lifecycle.fail now e j = Some j' /\
             domain.Status j' = domain.JobStatusFailed /\
             domain.Error j' = errors.Error e.
Proof.
  intros Hrun. unfold lifecycle.fail. rewrite Hrun. simpl.
  eexists; split; [reflexivity | split; reflexivity].
Qed.



(** With the engine the repository has, the decide stage never yields a
    Verdict: every running job it evaluates ends Failed. *)
Remark evaluate_with_ffmpeg_fails
    (jobs : option service.JobRepositoryValue)
    (queue : option service.JobQueueValue)
    (storage : option service.StorageValue)
    (ctx : context.Context) (now : Z) (i : qc.Input) (j : domain.Job) :
  domain.Status j = domain.JobStatusRunning ->
  exists j',
    lifecycle.evaluate (service.NewQCUseCase jobs queue storage ffmpegService)
      ctx now i j = Some j' /\
    domain.Status j' = domain.JobStatusFailed /\
    domain.Error j' = "ffmpeg orchestration not implemented".
Proof.
  intros Hrun. unfold lifecycle.evaluate, service.NewQCUseCase.
  cbn [service.qc]. rewrite Run_ffmpeg.
  cbn [lifecycle.settle].
  exact (fail_running now (errors.New "ffmpeg orchestration not implemented") j Hrun).
Qed.

(** ** Persistence and storage boundaries *)

Lemma postgres_perform (r : postgres.JobRepository)
    (c : service.JobRepositoryCall) (rows : gmap string domain.Job) :
  service.perform r c rows = (None, rows).
Proof. destruct c; reflexivity. Qed.

Lemma postgres_performAll (r : postgres.JobRepository)
    (cs : list service.JobRepositoryCall) (rows : gmap string domain.Job) :
  service.performAll r cs rows = rows.
Proof.
  revert rows. induction cs as [| c cs IH]; intros rows; simpl.
  - reflexivity.
  - rewrite postgres_perform. simpl. apply IH.
Qed.

(** C9: the repository boundary has the two methods Save and Update and
    nothing that deletes: after any sequence of calls on the repository, a
    stored job that had reached Completed or Failed is still stored. *)
Theorem finished_job_stays_stored :
  forall (r : postgres.JobRepository) (cs : list service.JobRepositoryCall)
         (rows : gmap string domain.Job) (id : string) (j : domain.Job),
    rows !! id = Some j ->
    domain.Status j = domain.JobStatusCompleted \/
    domain.Status j = domain.JobStatusFailed ->
    service.performAll r cs rows !! id = Some j.
Proof.
  intros r cs rows id j Hstored _.
  rewrite postgres_performAll. exact Hstored.
Qed.

Lemma finished_job_stays_stored_witness :
  ({[ "job-1" := samples.completedJob ]} : gmap string domain.Job) !! "job-1"
    = Some samples.completedJob /\
  domain.Status samples.completedJob = domain.JobStatusCompleted /\
  service.performAll samples.repository samples.calls
    {[ "job-1" := samples.completedJob ]} !! "job-1"
  = Some samples.completedJob.
Proof.
  assert (Hstored :
    ({[ "job-1" := samples.completedJob ]} : gmap string domain.Job) !! "job-1"
    = Some samples.completedJob) by apply lookup_singleton_eq.
  split; [exact Hstored | split; [reflexivity |]].
  apply (finished_job_stays_stored samples.repository samples.calls
           {[ "job-1" := samples.completedJob ]} "job-1" samples.completedJob).
  - exact Hstored.
  - left. reflexivity.
Defined.

(** C10: the storage adapter's download reports success for every
    context, object key and destination path, also when called through
    the [service.Storage] boundary. *)
Theorem DownloadToPath_never_fails :
  forall (a : s3.Adapter) (ctx : context.Context) (objectKey path : string),
    s3.DownloadToPath a ctx objectKey path = None /\
    service.DownloadToPath a ctx objectKey path = None.
Proof.
  intros a ctx objectKey path. split; reflexivity.
Qed.

(** * Further properties of the code *)

Local Open Scope list_scope.

(** ** Route registration *)

Lemma no_conflict_registered {W : Type} (rules : nethttp.MuxRules)
    (mux : gmap string (nethttp.Handler W)) (pattern : string) :
  (forall p : string,
     is_Some (mux !! p) -> nethttp.conflicts rules p pattern = false) ->
  existsb (fun p => nethttp.conflicts rules p pattern)
          (map fst (map_to_list mux)) = false.
Proof.
  intros Hfree. apply not_true_is_false. intros Hex.
  apply existsb_exists in Hex as (p & Hin & Hp).
  apply in_map_iff in Hin as ([p' h] & Hfst & Hin). simpl in Hfst. subst p'.
  apply list_elem_of_In, elem_of_map_to_list in Hin.
  rewrite (Hfree p) in Hp; [discriminate Hp | eauto].
Qed.

Lemma conflict_registered {W : Type} (rules : nethttp.MuxRules)
    (mux : gmap string (nethttp.Handler W)) (pattern : string) :
  is_Some (mux !! pattern) ->
  nethttp.conflicts rules pattern pattern = true ->
  existsb (fun p => nethttp.conflicts rules p pattern)
          (map fst (map_to_list mux)) = true.
Proof.
  intros [h Hh] Hself. apply existsb_exists. exists pattern. split; [| exact Hself].
  apply in_map_iff. exists (pattern, h). split; [reflexivity |].
  apply list_elem_of_In, elem_of_map_to_list. exact Hh.
Qed.

(** X3: under any pattern rules of the mux for which /healthz is a valid
    pattern in conflict with itself, [RegisterRoutes] on a mux none of
    whose patterns conflicts with /healthz registers the health handler
    under it and keeps every other pattern; a second [RegisterRoutes] on
    the resulting mux panics, and so does [RegisterRoutes] on a nil
    mux. *)
Theorem RegisterRoutes_once :
  forall (W : Type) (RW : nethttp.ResponseWriter W) (rules : nethttp.MuxRules)
         (mux : gmap string (nethttp.Handler W)),
    nethttp.valid rules "/healthz" = true ->
    nethttp.conflicts rules "/healthz" "/healthz" = true ->
    (forall p : string,
       is_Some (mux !! p) -> nethttp.conflicts rules p "/healthz" = false) ->
    exists mux' : gmap string (nethttp.Handler W),
      apphttp.RegisterRoutes rules (Some mux) = runtime.Returned mux' /\
      mux' !! "/healthz" = Some apphttp.healthzHandler /\
      (forall pattern : string,
         pattern <> "/healthz" -> mux' !! pattern = mux !! pattern) /\
      (exists reason : string,
         apphttp.RegisterRoutes rules (Some mux') = runtime.Panicked reason) /\
      exists reason : string,
        apphttp.RegisterRoutes rules None = runtime.Panicked reason.
Proof.
  intros W RW rules mux Hvalid Hself Hfree.
  exists (<["/healthz" := apphttp.healthzHandler]> mux).
  unfold apphttp.RegisterRoutes, nethttp.HandleFunc.
  rewrite Hvalid. cbn [negb].
  rewrite (no_conflict_registered rules mux "/healthz" Hfree).
  split; [reflexivity |].
  split; [apply lookup_insert_eq |].
  split; [| split].
  - intros pattern Hne. apply lookup_insert_ne. congruence.
  - rewrite (conflict_registered rules _ "/healthz"); [eauto | | exact Hself].
    rewrite lookup_insert_eq. eauto.
  - eauto.
Qed.

Lemma RegisterRoutes_once_witness :
  exists mux' : gmap string (nethttp.Handler (list fixtures.Call)),
    apphttp.RegisterRoutes fixtures.exactRules (Some ∅) = runtime.Returned mux' /\
    mux' !! "/healthz" = Some apphttp.healthzHandler /\
    (forall pattern : string,
       pattern <> "/healthz" ->
       mux' !! pattern = (∅ : gmap string (nethttp.Handler (list fixtures.Call))) !! pattern) /\
    (exists reason : string,
       apphttp.RegisterRoutes fixtures.exactRules (Some mux') = runtime.Panicked reason) /\
    exists reason : string,
      apphttp.RegisterRoutes fixtures.exactRules None = runtime.Panicked reason.
Proof.
  apply (RegisterRoutes_once (list fixtures.Call) fixtures.recorder
           fixtures.exactRules ∅).
  - reflexivity.
  - reflexivity.
  - intros p [h Hh]. rewrite lookup_empty in Hh. discriminate Hh.
Defined.

(** ** The logging middleware *)

Lemma LoggingMiddleware_served {W : Type} (next : nethttp.Handler W)
    (wr wr2 : W) (q : nethttp.Request) (u : url.URL)
    (assigned : nethttp.Request -> nethttp.Request) (w w2 : process.World) :
  next wr (Some q) (snd (process.time_Now w)) = nethttp.Served w2 wr2 assigned ->
  nethttp.URL (assigned q) = Some u ->
  apphttp.LoggingMiddleware (Some next) wr (Some q) w
  = nethttp.Served
      {| process.readings := process.readings w2;
         process.reads := S (S (process.reads w2));
         process.logged :=
           process.logged w2 ++
           [ log.mkEntry
               (time.wall (process.readings w2 (S (process.reads w2))))
               "method=%s path=%s duration=%s"
               [ log.ArgString (nethttp.Method (assigned q));
                 log.ArgString (url.Path u);
                 log.ArgDuration
                   (time.Sub (process.readings w2 (process.reads w2))
                             (process.readings w (process.reads w))) ] ] |}
      wr2 assigned.
Proof.
  intros Hnext Hurl. unfold apphttp.LoggingMiddleware.
  simpl in Hnext |- *. rewrite Hnext. simpl. rewrite Hurl. reflexivity.
Qed.

(** X4: the middleware hands the writer and the request to [next] as they
    are and makes no call on the writer itself: when [next] serves the
    request and leaves it with a URL, the writer is exactly as [next]
    left it. *)
Theorem LoggingMiddleware_leaves_response :
  forall (W : Type) (next : nethttp.Handler W) (wr wr2 : W)
         (q : nethttp.Request) (u : url.URL)
         (assigned : nethttp.Request -> nethttp.Request)
         (w w2 : process.World),
    next wr (Some q) (snd (process.time_Now w)) = nethttp.Served w2 wr2 assigned ->
    nethttp.URL (assigned q) = Some u ->
    exists w' : process.World,
      apphttp.LoggingMiddleware (Some next) wr (Some q) w
      = nethttp.Served w' wr2 assigned.
Proof.
  intros W next wr wr2 q u assigned w w2 Hnext Hurl.
  eexists. apply (LoggingMiddleware_served _ _ _ _ _ _ _ _ Hnext Hurl).
Qed.

Lemma LoggingMiddleware_leaves_response_witness :
  exists w' : process.World,
    apphttp.LoggingMiddleware (Some apphttp.healthzHandler) []
      (Some fixtures.postHealthz) fixtures.world
    = nethttp.Served w' fixtures.healthzCalls (fun q => q).
Proof.
  apply (LoggingMiddleware_leaves_response (list fixtures.Call)
           apphttp.healthzHandler [] fixtures.healthzCalls
           fixtures.postHealthz (url.mkURL "/healthz") (fun q => q)
           fixtures.world (snd (process.time_Now fixtures.world))).
  - reflexivity.
  - reflexivity.
Defined.

(** X5: when [next] serves the request and leaves it with a URL, the
    middleware logs exactly one line, after whatever was logged during
    [next]. Its operands are the method and the path of the request as
    [next] left it (not as it was received) and the time between the
    clock reading taken before [next] and the one taken after it; the
    clock is read once more for the line's stamp. *)
Theorem LoggingMiddleware_logs_one_line :
  forall (W : Type) (next : nethttp.Handler W) (wr wr2 : W)
         (q : nethttp.Request) (u : url.URL)
         (assigned : nethttp.Request -> nethttp.Request)
         (w w2 : process.World),
    next wr (Some q) (snd (process.time_Now w)) = nethttp.Served w2 wr2 assigned ->
    nethttp.URL (assigned q) = Some u ->
    exists w' : process.World,
      apphttp.LoggingMiddleware (Some next) wr (Some q) w
      = nethttp.Served w' wr2 assigned /\
      process.logged w' =
        process.logged w2 ++
        [ log.mkEntry
            (time.wall (process.readings w2 (S (process.reads w2))))
            "method=%s path=%s duration=%s"
            [ log.ArgString (nethttp.Method (assigned q));
              log.ArgString (url.Path u);
              log.ArgDuration
                (time.Sub (process.readings w2 (process.reads w2))
                          (process.readings w (process.reads w))) ] ] /\
      process.reads w' = S (S (process.reads w2)).
Proof.
  intros W next wr wr2 q u assigned w w2 Hnext Hurl.
  eexists. split; [apply (LoggingMiddleware_served _ _ _ _ _ _ _ _ Hnext Hurl) |].
  split; reflexivity.
Qed.

Lemma LoggingMiddleware_logs_one_line_witness :
  exists w' : process.World,
    apphttp.LoggingMiddleware (Some fixtures.rewriting) []
      (Some fixtures.postHealthz) fixtures.world
    = nethttp.Served w' []
        (fun q => {| nethttp.Method := nethttp.Method q;
                     nethttp.URL := Some (url.mkURL "/internal/health") |}) /\
    process.logged w' =
      [ log.mkEntry 1700000000000002000 "method=%s path=%s duration=%s"
          [ log.ArgString "POST"; log.ArgString "/internal/health";
            log.ArgDuration 1000 ] ] /\
    process.reads w' = 3%nat.
Proof.
  apply (LoggingMiddleware_logs_one_line (list fixtures.Call)
           fixtures.rewriting [] [] fixtures.postHealthz
           (url.mkURL "/internal/health")
           (fun q => {| nethttp.Method := nethttp.Method q;
                        nethttp.URL := Some (url.mkURL "/internal/health") |})
           fixtures.world (snd (process.time_Now fixtures.world))).
  - reflexivity.
  - reflexivity.
Defined.

(** X6: when [next] panics, the middleware panics with the same reason
    and logs nothing for the request: environment and writer are as
    [next] left them. *)
Theorem LoggingMiddleware_does_not_log_a_panic :
  forall (W : Type) (next : nethttp.Handler W) (wr wr2 : W)
         (r : option nethttp.Request) (w w2 : process.World) (reason : string),
    next wr r (snd (process.time_Now w)) = nethttp.Panics reason w2 wr2 ->
    apphttp.LoggingMiddleware (Some next) wr r w
    = nethttp.Panics reason w2 wr2.
Proof.
  intros W next wr wr2 r w w2 reason Hnext.
  unfold apphttp.LoggingMiddleware. simpl in Hnext |- *.
  rewrite Hnext. reflexivity.
Qed.

Lemma LoggingMiddleware_does_not_log_a_panic_witness :
  apphttp.LoggingMiddleware (Some fixtures.panicking) []
    (Some fixtures.postHealthz) fixtures.world
  = nethttp.Panics "boom" (snd (process.time_Now fixtures.world)) [].
Proof.
  apply (LoggingMiddleware_does_not_log_a_panic (list fixtures.Call)
           fixtures.panicking [] [] (Some fixtures.postHealthz)
           fixtures.world (snd (process.time_Now fixtures.world)) "boom").
  reflexivity.
Defined.

(** X7: a middleware built on a nil handler is built without complaint
    and panics on every request with a nil dereference, after one clock
    reading, with nothing logged and nothing written. *)
Theorem LoggingMiddleware_nil_next_panics :
  forall (W : Type) (wr : W) (r : option nethttp.Request) (w : process.World),
    exists w' : process.World,
      apphttp.LoggingMiddleware None wr r w
      = nethttp.Panics runtime.nilDereference w' wr /\
      process.logged w' = process.logged w /\
      process.reads w' = S (process.reads w).
Proof.
  intros W wr r w. eexists. repeat split.
Qed.

(** X9: two middlewares stacked around [next] log two lines for a request
    that [next] serves and leaves with a URL, the inner one first; the
    outer line's time runs from the first clock reading of the request to
    a reading taken after the inner line was stamped. *)
Theorem LoggingMiddleware_stacked_logs_inner_first :
  forall (W : Type) (next : nethttp.Handler W) (wr wr2 : W)
         (q : nethttp.Request) (u : url.URL)
         (assigned : nethttp.Request -> nethttp.Request)
         (w w2 : process.World),
    next wr (Some q) (snd (process.time_Now (snd (process.time_Now w))))
    = nethttp.Served w2 wr2 assigned ->
    nethttp.URL (assigned q) = Some u ->
    exists w' : process.World,
      apphttp.LoggingMiddleware
        (Some (apphttp.LoggingMiddleware (Some next))) wr (Some q) w
      = nethttp.Served w' wr2 assigned /\
      process.logged w' =
        process.logged w2 ++
        [ log.mkEntry
            (time.wall (process.readings w2 (S (process.reads w2))))
            "method=%s path=%s duration=%s"
            [ log.ArgString (nethttp.Method (assigned q));
              log.ArgString (url.Path u);
              log.ArgDuration
                (time.Sub (process.readings w2 (process.reads w2))
                          (process.readings w (S (process.reads w)))) ];
          log.mkEntry
            (time.wall (process.readings w2 (S (S (S (process.reads w2))))))
            "method=%s path=%s duration=%s"
            [ log.ArgString (nethttp.Method (assigned q));
              log.ArgString (url.Path u);
              log.ArgDuration
                (time.Sub (process.readings w2 (S (S (process.reads w2))))
                          (process.readings w (process.reads w))) ] ].
Proof.
  intros W next wr wr2 q u assigned w w2 Hnext Hurl.
  pose proof (LoggingMiddleware_served next wr wr2 q u assigned
                (snd (process.time_Now w)) w2 Hnext Hurl) as Hinner.
  pose proof (LoggingMiddleware_served
                (apphttp.LoggingMiddleware (Some next)) wr wr2 q u assigned
                w _ Hinner Hurl) as Houter.
  eexists. split; [exact Houter |].
  simpl. rewrite <- app_assoc. reflexivity.
Qed.

Lemma LoggingMiddleware_stacked_logs_inner_first_witness :
  exists w' : process.World,
    apphttp.LoggingMiddleware
      (Some (apphttp.LoggingMiddleware (Some apphttp.healthzHandler))) []
      (Some fixtures.postHealthz) fixtures.world
    = nethttp.Served w' fixtures.healthzCalls (fun q => q) /\
    process.logged w' =
      [ log.mkEntry 1700000000000003000 "method=%s path=%s duration=%s"
          [ log.ArgString "POST"; log.ArgString "/healthz"; log.ArgDuration 1000 ];
        log.mkEntry 1700000000000005000 "method=%s path=%s duration=%s"
          [ log.ArgString "POST"; log.ArgString "/healthz"; log.ArgDuration 4000 ] ].
Proof.
  apply (LoggingMiddleware_stacked_logs_inner_first (list fixtures.Call)
           apphttp.healthzHandler [] fixtures.healthzCalls
           fixtures.postHealthz (url.mkURL "/healthz") (fun q => q)
           fixtures.world
           (snd (process.time_Now (snd (process.time_Now fixtures.world))))).
  - reflexivity.
  - reflexivity.
Defined.

(** X16: the middleware reads the request again after [next] has served
    it. A nil request, or a request that [next] leaves without a URL,
    makes it panic with a nil dereference at that point: what [next]
    wrote stays written and no line is logged for the request. *)
Theorem LoggingMiddleware_panics_without_URL :
  forall (W : Type) (next : nethttp.Handler W) (wr wr2 : W)
         (r : option nethttp.Request)
         (assigned : nethttp.Request -> nethttp.Request)
         (w w2 : process.World),
    next wr r (snd (process.time_Now w)) = nethttp.Served w2 wr2 assigned ->
    r = None \/ (exists q, r = Some q /\ nethttp.URL (assigned q) = None) ->
    exists w' : process.World,
      apphttp.LoggingMiddleware (Some next) wr r w
      = nethttp.Panics runtime.nilDereference w' wr2 /\
      process.logged w' = process.logged w2.
Proof.
  intros W next wr wr2 r assigned w w2 Hnext Hnil.
  exists w2. split; [| reflexivity].
  unfold apphttp.LoggingMiddleware. simpl in Hnext |- *. rewrite Hnext.
  destruct Hnil as [-> | (q & -> & Hurl)]; simpl.
  - reflexivity.
  - rewrite Hurl. reflexivity.
Qed.

Lemma LoggingMiddleware_panics_without_URL_witness :
  exists w' : process.World,
    apphttp.LoggingMiddleware (Some fixtures.clearingURL) []
      (Some fixtures.postHealthz) fixtures.world
    = nethttp.Panics runtime.nilDereference w' [] /\
    process.logged w' = process.logged (snd (process.time_Now fixtures.world)).
Proof.
  apply (LoggingMiddleware_panics_without_URL (list fixtures.Call)
           fixtures.clearingURL [] [] (Some fixtures.postHealthz)
           (fun q => {| nethttp.Method := nethttp.Method q; nethttp.URL := None |})
           fixtures.world (snd (process.time_Now fixtures.world))).
  - reflexivity.
  - right. exists fixtures.postHealthz. split; reflexivity.
Defined.

(** ** The job repository *)

(** X10: the repository stores nothing: a job that is not in the table
    is still not there after any sequence of Save and Update calls, a
    Save of that very job included. *)
Theorem saved_job_is_not_stored :
  forall (r : postgres.JobRepository) (cs : list service.JobRepositoryCall)
         (rows : gmap string domain.Job) (id : string),
    rows !! id = None ->
    service.performAll r cs rows !! id = None.
Proof.
  intros r cs. induction cs as [| c cs IH]; intros rows id Habsent.
  - exact Habsent.
  - cbn [service.performAll]. apply IH.
    destruct c; exact Habsent.
Qed.

Lemma saved_job_is_not_stored_witness :
  (∅ : gmap string domain.Job) !! domain.ID samples.queuedJob = None /\
  service.performAll samples.repository
    [ service.CallSave context.Background samples.queuedJob;
      service.CallUpdate context.Background samples.queuedJob ] ∅
    !! domain.ID samples.queuedJob
  = None.
Proof.
  assert (H : (∅ : gmap string domain.Job) !! domain.ID samples.queuedJob = None)
    by apply lookup_empty.
  split; [exact H |].
  exact (saved_job_is_not_stored samples.repository
           [ service.CallSave context.Background samples.queuedJob;
             service.CallUpdate context.Background samples.queuedJob ]
           ∅ (domain.ID samples.queuedJob) H).
Defined.

(** X11: every call on the repository reports success, one nil error per
    call: also an Update of a job that was never saved, a Save of a job
    that is stored already, and a call under a cancelled context. *)
Theorem repository_calls_never_fail :
  forall (r : postgres.JobRepository) (cs : list service.JobRepositoryCall)
         (rows : gmap string domain.Job),
    boundary.errorsOf r cs rows = repeat None (length cs).
Proof.
  intros r cs. induction cs as [| c cs IH]; intros rows.
  - reflexivity.
  - cbn [boundary.errorsOf length repeat]. f_equal.
    + destruct c; reflexivity.
    + rewrite IH. reflexivity.
Qed.

(** ** The QC service *)

(** X12: [Service.Run] makes no check of its engine. On a Service without
    engine (the zero [Service], or one built from a nil engine) it panics
    with a nil dereference; on a Service whose engine is a nil
    [*FFmpegOrchestrator] it panics as well, although the interface is
    not nil; with any engine it ends exactly as the engine's [Analyze]
    does, a panic included. *)
Theorem Run_does_not_guard_its_engine :
  forall (ctx : context.Context) (i : qc.Input),
    qc.Run (qc.NewService None) ctx i
    = runtime.Panicked runtime.nilDereference /\
    qc.Run (qc.mkService None) ctx i
    = runtime.Panicked runtime.nilDereference /\
    (exists reason : string,
       qc.Run (qc.NewService
                 (Some (qc.engineOf (None : option qc.FFmpegOrchestrator))))
              ctx i
       = runtime.Panicked reason) /\
    forall e : qc.EngineValue,
      qc.Run (qc.NewService (Some e)) ctx i = qc.call_Analyze e ctx i.
Proof.
  intros ctx i. repeat split.
  eexists. reflexivity.
Qed.


(** ** The migration script *)

Lemma exec_keeps (cat cat' : gmap string (list migrations.Column))
    (s : init_001.CreateTable) (name : string) (cols : list migrations.Column) :
  init_001.exec cat s = Some cat' ->
  cat !! name = Some cols -> cat' !! name = Some cols.
Proof.
  unfold init_001.exec. intros Hexec Hname.
  destruct (cat !! init_001.tbl_name s) eqn:Hs.
  - injection Hexec as <-. exact Hname.
  - destruct (forallb _ _); [| discriminate Hexec].
    injection Hexec as <-.
    rewrite lookup_insert_ne; [exact Hname |].
    intros Heq. rewrite Heq in Hs. congruence.
Qed.

Lemma exec_creates (cat cat' : gmap string (list migrations.Column))
    (s : init_001.CreateTable) :
  init_001.exec cat s = Some cat' ->
  is_Some (cat' !! init_001.tbl_name s).
Proof.
  unfold init_001.exec. intros Hexec.
  destruct (cat !! init_001.tbl_name s) eqn:Hs.
  - injection Hexec as <-. rewrite Hs. eauto.
  - destruct (forallb _ _); [| discriminate Hexec].
    injection Hexec as <-. rewrite lookup_insert_eq. eauto.
Qed.

Lemma run_keeps (ss : list init_001.CreateTable) :
  forall (cat : gmap string (list migrations.Column))
         (name : string) (cols : list migrations.Column),
    cat !! name = Some cols ->
    fst (init_001.run ss cat) !! name = Some cols.
Proof.
  induction ss as [| s ss IH]; intros cat name cols Hname; simpl.
  - exact Hname.
  - destruct (init_001.exec cat s) as [cat1 |] eqn:Hexec; simpl.
    + apply IH. apply (exec_keeps _ _ _ _ _ Hexec Hname).
    + exact Hname.
Qed.

Lemma run_all_present (ss : list init_001.CreateTable) :
  forall cat : gmap string (list migrations.Column),
    Forall (fun s => is_Some (cat !! init_001.tbl_name s)) ss ->
    init_001.run ss cat = (cat, None).
Proof.
  induction ss as [| s ss IH]; intros cat Hall; simpl.
  - reflexivity.
  - inversion Hall as [| ? ? [cols Hs] Hrest]; subst.
    unfold init_001.exec. rewrite Hs. apply IH. exact Hrest.
Qed.

Lemma run_success_creates (ss : list init_001.CreateTable) :
  forall cat cat' : gmap string (list migrations.Column),
    init_001.run ss cat = (cat', None) ->
    Forall (fun s => is_Some (cat' !! init_001.tbl_name s)) ss.
Proof.
  induction ss as [| s ss IH]; intros cat cat' Hrun; simpl in Hrun.
  - constructor.
  - destruct (init_001.exec cat s) as [cat1 |] eqn:Hexec; [| discriminate Hrun].
    constructor.
    + destruct (exec_creates _ _ _ Hexec) as [cols Hcols].
      exists cols.
      pose proof (run_keeps ss cat1 _ _ Hcols) as Hkeep.
      rewrite Hrun in Hkeep. exact Hkeep.
    + apply (IH cat1). exact Hrun.
Qed.

(** X13: on an empty database the script runs through without error and
    leaves exactly the four tables releases, tracks, mix_files and
    qc_jobs, each with the columns the script declares: every REFERENCES
    names a table an earlier statement created, and its primary key. *)
Theorem script_applies_to_empty_database :
  exists cat : gmap string (list migrations.Column),
    init_001.run init_001.script ∅ = (cat, None) /\
    cat !! "releases" = Some init_001.releases /\
    cat !! "tracks" = Some init_001.tracks /\
    cat !! "mix_files" = Some init_001.mix_files /\
    cat !! "qc_jobs" = Some migrations.qc_jobs /\
    size cat = 4%nat.
Proof.
  eexists. split; [vm_compute; reflexivity |].
  repeat split; vm_compute; reflexivity.
Qed.

(** X14: the script can be run again: from any database on which it ran
    through without error, a second run succeeds as well and changes
    nothing. This holds for any list of such statements. *)
Theorem script_can_be_rerun :
  forall (ss : list init_001.CreateTable)
         (cat cat' : gmap string (list migrations.Column)),
    init_001.run ss cat = (cat', None) ->
    init_001.run ss cat' = (cat', None).
Proof.
  intros ss cat cat' Hrun.
  apply run_all_present. apply (run_success_creates ss cat cat' Hrun).
Qed.

Lemma script_can_be_rerun_witness :
  init_001.run init_001.script ∅
  = (fst (init_001.run init_001.script ∅), None) /\
  init_001.run init_001.script (fst (init_001.run init_001.script ∅))
  = (fst (init_001.run init_001.script ∅), None).
Proof.
  assert (H : init_001.run init_001.script ∅
              = (fst (init_001.run init_001.script ∅), None))
    by (vm_compute; reflexivity).
  split; [exact H |].
  exact (script_can_be_rerun init_001.script ∅ _ H).
Defined.

(** X15: the script never alters a table that exists: whatever the
    database holds under a name before the run, it holds the same columns
    under it afterwards, whether the run succeeds or fails. A qc_jobs
    table of another shape is therefore left as it is. *)
Theorem script_never_alters_a_table :
  forall (ss : list init_001.CreateTable)
         (cat : gmap string (list migrations.Column))
         (name : string) (cols : list migrations.Column),
    cat !! name = Some cols ->
    fst (init_001.run ss cat) !! name = Some cols.
Proof.
  intros ss cat name cols Hname. apply run_keeps. exact Hname.
Qed.

Lemma script_never_alters_a_table_witness :
  fixtures.legacy !! "qc_jobs"
  = Some [ migrations.mkColumn "id" "TEXT" false true None false ] /\
  fst (init_001.run init_001.script fixtures.legacy) !! "qc_jobs"
  = Some [ migrations.mkColumn "id" "TEXT" false true None false ].
Proof.
  assert (H : fixtures.legacy !! "qc_jobs"
              = Some [ migrations.mkColumn "id" "TEXT" false true None false ])
    by apply lookup_singleton_eq.
  split; [exact H |].
  exact (script_never_alters_a_table init_001.script fixtures.legacy "qc_jobs" _ H).
Defined.
